(** * swift-reflection-dump: locating the reflection sections of a binary

    A shallow embedding of [tools/swift-reflection-dump/swift-reflection-dump.cpp]
    and the properties of its section lookup ([getSectionRef]) and of its
    driver ([doDumpReflectionSections]). *)

From Stdlib Require Import List String Ascii ZArith NArith Bool Lia Permutation.
Import ListNotations.
Local Open Scope string_scope.
Local Open Scope list_scope.
Local Open Scope Z_scope.

(** ** Data model *)

(** Pointers and [size_t] are 64 bits wide on the host: their values are
    the integers below [addressSpace]. *)
Definition addressSpace : Z := 2 ^ 64.

(** [llvm::StringRef]: a pointer to the first byte and a length ([size_t]);
    [begin()] is the pointer and [end()] the pointer plus the length, in
    pointer arithmetic, which wraps around at [addressSpace].  The
    default-constructed [StringRef] is the null pointer with length zero.
    The fields are held in [Z] and [N]; a value the machine can hold is
    [representable], and what a theorem needs of that is among its
    hypotheses. *)
Record StringRef : Type := mkStringRef {
  Data : Z;
  Length : N
}.

Definition nullptr : Z := 0.

Definition begin_ (s : StringRef) : Z := Data s.
Definition end_ (s : StringRef) : Z :=
  (Data s + Z.of_N (Length s)) mod addressSpace.

(** The pointer and the length are 64-bit values. *)
Definition representable (s : StringRef) : Prop :=
  0 <= Data s < addressSpace /\ Z.of_N (Length s) < addressSpace.

(** The bytes viewed lie below the top of the address space: the end
    pointer is reached without wrapping around. *)
Definition withinAddressSpace (s : StringRef) : Prop :=
  0 <= Data s /\ Data s + Z.of_N (Length s) < addressSpace.

(** One entry of an object file's section table, as the tool observes it:
    the name [section.getName(sectionName)] leaves in its out-parameter and
    the bytes [section.getContents(contents)] leaves in its out-parameter.
    The tool drops the error codes of both calls. *)
Record Section : Type := mkSection {
  getName : string;
  getContents : StringRef
}.

(** [llvm::object::ObjectFile]: the section table in declaration order, which
    is the order [objectFile->sections()] iterates in. *)
Record ObjectFile : Type := mkObjectFile {
  sections : list Section
}.

(** [llvm::object::SectionRef] as returned by [getSectionRef]: either a
    section of the object ([getObject()] is the object) or the
    default-constructed [SectionRef()] whose [getObject()] is [nullptr]. *)
Definition SectionRef : Type := option Section.

(** A reflection section handed to the builder: [{Begin, End}], two
    [const void *].  [FieldSection], [AssociatedTypeSection],
    [BuiltinTypeSection] and [GenericSection] all have this shape. *)
Record ReflectionSection : Type := mkReflectionSection {
  Begin : Z;
  End_ : Z
}.

(** The aggregate passed to [builder.addReflectionInfo], fields in the
    order of the braced initialiser at lines 208-215. *)
Record ReflectionInfo : Type := mkReflectionInfo {
  ImageName : string;
  fieldmd : ReflectionSection;
  assocty : ReflectionSection;
  builtin : ReflectionSection;
  typeref : ReflectionSection;
  reflstr : ReflectionSection
}.

(** ** Section lookup: [getSectionRef] (lines 79-92) *)

(** The inner loop, lines 85-89: does [sectionName.equals(desiredName)] hold
    for some [desiredName] of the list.  [StringRef::equals] is equality of
    length and of bytes, hence [String.eqb]. *)
Fixpoint equalsAny (sectionName : string) (anySectionNames : list string) : bool :=
  match anySectionNames with
  | [] => false
  | desiredName :: rest =>
      if String.eqb sectionName desiredName then true
      else equalsAny sectionName rest
  end.

(** The outer loop, lines 82-91, over a section table. *)
Fixpoint scanSections (table : list Section) (anySectionNames : list string)
  : SectionRef :=
  match table with
  | [] => None
  | section :: rest =>
      if equalsAny (getName section) anySectionNames then Some section
      else scanSections rest anySectionNames
  end.

Definition getSectionRef (objectFile : ObjectFile) (anySectionNames : list string)
  : SectionRef :=
  scanSections (sections objectFile) anySectionNames.

(** ** Errors and the binaries the tool loads *)

(** The [std::error_code] values the two library calls of the tool can hand
    back: two of [std::errc] and two of [llvm::object::object_error]. *)
Inductive error_code : Type :=
| no_such_file_or_directory
| permission_denied
| invalid_file_type
| arch_not_found.

(** [llvm::ErrorOr<T>]: [getError()] is set, or [get()] is the value. *)
Inductive ErrorOr (T : Type) : Type :=
| Error (e : error_code)
| Value (v : T).
Arguments Error {T} e.
Arguments Value {T} v.

(** One slice of a universal binary: its declared architecture name and
    the object file it holds. *)
Record ObjectForArch : Type := mkObjectForArch {
  getArchTypeName : string;
  getAsObjectFile : ObjectFile
}.

Record MachOUniversalBinary : Type := mkMachOUniversalBinary {
  objects : list ObjectForArch
}.

(** [llvm::object::Binary] as lines 108-114 take it apart: what
    [dyn_cast<ObjectFile>] accepts, or else what
    [cast<MachOUniversalBinary>] takes it to be. *)
Inductive Binary : Type :=
| IsObjectFile (o : ObjectFile)
| IsMachOUniversalBinary (universal : MachOUniversalBinary).

(** What a path of the file system leads to. *)
Inductive File : Type :=
| Unreadable
| Unrecognized
| Holds (b : Binary).

(** A file system: [None] where the path does not exist. *)
Definition FileSystem : Type := string -> option File.

(** Modelled from the spec: [llvm::object::createBinary], the loader, is
    the library's and absent from the repository.  "Fails with LoadError
    when the path does not exist, is unreadable, or is not a recognized
    binary container format"; otherwise the handle is "classified as either
    flat object or multi-slice container". *)
Definition createBinary (fs : FileSystem) (path : string) : ErrorOr Binary :=
  match fs path with
  | None => Error no_such_file_or_directory
  | Some Unreadable => Error permission_denied
  | Some Unrecognized => Error invalid_file_type
  | Some (Holds b) => Value b
  end.

(** Modelled from the spec: [MachOUniversalBinary::getObjectForArch], the
    slice selector, is the library's and absent from the repository.
    "Exact string match against the container's declared per-slice
    architecture names"; "first match wins"; "fails with
    ArchitectureNotFoundError if no slice's declared architecture matches
    exactly". *)
Fixpoint findObjectForArch (slices : list ObjectForArch) (arch : string)
  : ErrorOr ObjectFile :=
  match slices with
  | [] => Error arch_not_found
  | slice :: rest =>
      if String.eqb (getArchTypeName slice) arch
      then Value (getAsObjectFile slice)
      else findObjectForArch rest arch
  end.

Definition getObjectForArch (universal : MachOUniversalBinary) (arch : string)
  : ErrorOr ObjectFile :=
  findObjectForArch (objects universal) arch.

(** ** The process: output streams, the builder, and [exit] *)

(** [TypeRefBuilder] as the tool uses it: [addReflectionInfo] appends to the
    builder's list of images. *)
Record TypeRefBuilder : Type := mkTypeRefBuilder {
  ReflectionInfos : list ReflectionInfo
}.

Definition addReflectionInfo (builder : TypeRefBuilder) (info : ReflectionInfo)
  : TypeRefBuilder :=
  {| ReflectionInfos := ReflectionInfos builder ++ [info] |}.

(** The two streams the tool writes.  [std::cerr] is the text written so
    far.  [std::cout] only ever receives [builder.dumpAllSections]; its text
    is the decoder's business, so the stream is kept as the sequence of
    builders dumped to it. *)
Record Streams : Type := mkStreams {
  cerr : string;
  cout : list TypeRefBuilder
}.

(** A computation either goes on with a value or has called [exit]. *)
Inductive Flow (A : Type) : Type :=
| Continue (a : A)
| Exit (status : Z).
Arguments Continue {A} a.
Arguments Exit {A} status.

Definition Proc (A : Type) : Type := Streams -> Flow A * Streams.

Definition ret {A : Type} (a : A) : Proc A := fun w => (Continue a, w).

Definition bind {A B : Type} (m : Proc A) (k : A -> Proc B) : Proc B :=
  fun w =>
    match m w with
    | (Continue a, w') => k a w'
    | (Exit status, w') => (Exit status, w')
    end.

Definition exit {A : Type} (status : Z) : Proc A := fun w => (Exit status, w).

(** [std::cerr << s] *)
Definition cerr_put (s : string) : Proc unit :=
  fun w => (Continue tt, {| cerr := (cerr w ++ s)%string; cout := cout w |}).

(** [builder.dumpAllSections(std::cout)] *)
Definition dumpAllSections (builder : TypeRefBuilder) : Proc unit :=
  fun w => (Continue tt, {| cerr := cerr w; cout := cout w ++ [builder] |}).

Declare Scope proc_scope.
Delimit Scope proc_scope with proc.
Notation "x <- m ;; k" := (bind m (fun x => k))
  (at level 61, m at next level, right associativity) : proc_scope.
Notation "m ;; k" := (bind m (fun _ => k))
  (at level 61, right associativity) : proc_scope.
Local Open Scope proc_scope.

Definition EXIT_SUCCESS : Z := 0.
Definition EXIT_FAILURE : Z := 1.

(** The line feed of ["\n"]. *)
Definition nl : string := String (ascii_of_nat 10) EmptyString.

(** ** The tool *)

Section Tool.

(** [std::error_code::message()], the library's text for an error. *)
Variable message : error_code -> string.

(** [unwrap] (lines 71-77). *)
Definition unwrap {T : Type} (value : ErrorOr T) : Proc T :=
  match value with
  | Value v => ret v
  | Error e =>
      cerr_put "swift-reflection-test error: " ;;
      cerr_put (message e) ;;
      cerr_put nl ;;
      exit EXIT_FAILURE
  end.

(** The braced initialisers [{contents.begin(), contents.end()}] of lines
    130-133, 145-148, 162-165, 182-185 and 201-204. *)
Definition sectionOf (contents : StringRef) : ReflectionSection :=
  {| Begin := begin_ contents; End_ := end_ contents |}.

(** Lines 116-220 of [doDumpReflectionSections]: the five lookups in
    [objectFile], the three early returns, and the hand-over to the
    builder. *)
Definition dumpSectionsOf (binaryFilename : string) (objectFile : ObjectFile)
  : Proc Z :=
  (* Field descriptor section *)
  match getSectionRef objectFile ["__swift3_fieldmd"; ".swift3_fieldmd"] with
  | None =>
      cerr_put binaryFilename ;;
      cerr_put (" doesn't have a field reflection section!" ++ nl) ;;
      ret EXIT_FAILURE
  | Some fieldSectionRef =>
  let fieldSection := sectionOf (getContents fieldSectionRef) in
  (* Associated type section - optional *)
  let associatedTypeSection :=
    match getSectionRef objectFile ["__swift3_assocty"; ".swift3_assocty"] with
    | Some associatedTypeSectionRef =>
        sectionOf (getContents associatedTypeSectionRef)
    | None => {| Begin := nullptr; End_ := nullptr |}
    end in
  (* Builtin types section *)
  let builtinTypeSection :=
    match getSectionRef objectFile ["__swift3_builtin"; ".swift3_builtin"] with
    | Some builtinTypeSectionRef =>
        sectionOf (getContents builtinTypeSectionRef)
    | None => {| Begin := nullptr; End_ := nullptr |}
    end in
  (* Typeref section *)
  match getSectionRef objectFile ["__swift3_typeref"; ".swift3_typeref"] with
  | None =>
      cerr_put binaryFilename ;;
      cerr_put (" doesn't have an associated typeref section!" ++ nl) ;;
      ret EXIT_FAILURE
  | Some typeRefSectionRef =>
  let typeRefSection := sectionOf (getContents typeRefSectionRef) in
  (* Reflection strings section *)
  match getSectionRef objectFile ["__swift3_reflstr"; ".swift3_reflstr"] with
  | None =>
      cerr_put binaryFilename ;;
      cerr_put (" doesn't have an associated reflection strings section!" ++ nl) ;;
      ret EXIT_FAILURE
  | Some reflectionStringsSectionRef =>
  let reflectionStringsSection :=
    sectionOf (getContents reflectionStringsSectionRef) in
  (* Construct the TypeRefBuilder *)
  let builder := addReflectionInfo {| ReflectionInfos := [] |}
    {| ImageName := binaryFilename;
       fieldmd := fieldSection;
       assocty := associatedTypeSection;
       builtin := builtinTypeSection;
       typeref := typeRefSection;
       reflstr := reflectionStringsSection |} in
  (* Dump everything *)
  dumpAllSections builder ;;
  ret EXIT_SUCCESS
  end end end.

(** [doDumpReflectionSections] (lines 94-221); [fs] is the file system
    [createBinary] reads. *)
Definition doDumpReflectionSections (fs : FileSystem)
    (binaryFilename : string) (arch : string) : Proc Z :=
  binaryFile <- unwrap (createBinary fs binaryFilename) ;;
  objectFile <-
    match binaryFile with
    | IsObjectFile o => ret o
    | IsMachOUniversalBinary universal =>
        unwrap (getObjectForArch universal arch)
    end ;;
  dumpSectionsOf binaryFilename objectFile.

(** The two streams at process start. *)
Definition startup : Streams := {| cerr := ""; cout := [] |}.

(** [main] (lines 223-227), from the parsed options on: the exit status of
    the process and what it wrote. *)
Definition main (fs : FileSystem) (BinaryFilename Architecture : string)
  : Z * Streams :=
  match doDumpReflectionSections fs BinaryFilename Architecture startup with
  | (Continue status, w) => (status, w)
  | (Exit status, w) => (status, w)
  end.

End Tool.

(** ** Vocabulary of the specification *)

(** The five categories, in the order the tool looks them up. *)
Inductive SectionCategory : Type :=
| Field
| AssociatedType
| BuiltinType
| TypeRef
| ReflectionStrings.

(** The names each category is looked up under. *)
Definition aliases (c : SectionCategory) : list string :=
  match c with
  | Field => ["__swift3_fieldmd"; ".swift3_fieldmd"]
  | AssociatedType => ["__swift3_assocty"; ".swift3_assocty"]
  | BuiltinType => ["__swift3_builtin"; ".swift3_builtin"]
  | TypeRef => ["__swift3_typeref"; ".swift3_typeref"]
  | ReflectionStrings => ["__swift3_reflstr"; ".swift3_reflstr"]
  end.

Definition required (c : SectionCategory) : bool :=
  match c with
  | Field | TypeRef | ReflectionStrings => true
  | AssociatedType | BuiltinType => false
  end.

(** The diagnostic that names a missing required category (lines 123, 175
    and 194); nothing is ever printed for the optional ones. *)
Definition missingText (c : SectionCategory) : string :=
  match c with
  | Field => " doesn't have a field reflection section!" ++ nl
  | TypeRef => " doesn't have an associated typeref section!" ++ nl
  | ReflectionStrings =>
      " doesn't have an associated reflection strings section!" ++ nl
  | AssociatedType | BuiltinType => ""
  end.

(** The streams after the missing-section diagnostic for [c]. *)
Definition reportMissing (binaryFilename : string) (c : SectionCategory)
    (w : Streams) : Streams :=
  {| cerr := (cerr w ++ binaryFilename) ++ missingText c; cout := cout w |}.

(** The range a bundle records for a category. *)
Definition rangeOf (info : ReflectionInfo) (c : SectionCategory)
  : ReflectionSection :=
  match c with
  | Field => fieldmd info
  | AssociatedType => assocty info
  | BuiltinType => builtin info
  | TypeRef => typeref info
  | ReflectionStrings => reflstr info
  end.

(** The explicit "absent" range: start and end both null. *)
Definition absent : ReflectionSection := {| Begin := nullptr; End_ := nullptr |}.

(** What the lookup of a category yields as a range. *)
Definition located (objectFile : ObjectFile) (c : SectionCategory)
  : ReflectionSection :=
  match getSectionRef objectFile (aliases c) with
  | Some section => sectionOf (getContents section)
  | None => absent
  end.

(** The bundle the tool hands over when nothing required is missing. *)
Definition bundleOf (binaryFilename : string) (objectFile : ObjectFile)
  : ReflectionInfo :=
  {| ImageName := binaryFilename;
     fieldmd := located objectFile Field;
     assocty := located objectFile AssociatedType;
     builtin := located objectFile BuiltinType;
     typeref := located objectFile TypeRef;
     reflstr := located objectFile ReflectionStrings |}.

(** The streams after the bundle has been dumped. *)
Definition dumped (info : ReflectionInfo) (w : Streams) : Streams :=
  {| cerr := cerr w; cout := cout w ++ [ {| ReflectionInfos := [info] |} ] |}.

(** A category is present in an object when its lookup finds a section,
    missing when it yields the null [SectionRef]. *)
Definition present (objectFile : ObjectFile) (c : SectionCategory) : Prop :=
  getSectionRef objectFile (aliases c) <> None.

Definition missing (objectFile : ObjectFile) (c : SectionCategory) : Prop :=
  getSectionRef objectFile (aliases c) = None.

(** Position of a category in the declaration order. *)
Definition rank (c : SectionCategory) : nat :=
  match c with
  | Field => 0
  | AssociatedType => 1
  | BuiltinType => 2
  | TypeRef => 3
  | ReflectionStrings => 4
  end.

(** The streams after [unwrap] has reported [e]. *)
Definition reportError (message : error_code -> string) (e : error_code)
    (w : Streams) : Streams :=
  {| cerr := ((cerr w ++ "swift-reflection-test error: ") ++ message e) ++ nl;
     cout := cout w |}.

(** ** Sample inputs *)

Definition sec (name : string) (data : Z) (len : N) : Section :=
  {| getName := name; getContents := {| Data := data; Length := len |} |}.

(** A flat object with exactly the three required sections. *)
Definition requiredOnly : ObjectFile :=
  {| sections := [ sec "__swift3_fieldmd" 4096 64;
                   sec "__swift3_typeref" 4160 32;
                   sec "__swift3_reflstr" 4192 16 ] |}.

(** The same with other sections around, the field section empty, and a
    second section answering to the other field alias. *)
Definition emptyField : ObjectFile :=
  {| sections := [ sec "__text" 1024 512;
                   sec "__swift3_fieldmd" 4096 0;
                   sec "__swift3_typeref" 4096 32;
                   sec ".swift3_fieldmd" 8192 8;
                   sec "__swift3_reflstr" 4128 16 ] |}.

(** An object with an empty optional section. *)
Definition emptyBuiltin : ObjectFile :=
  {| sections := [ sec "__swift3_fieldmd" 4096 64;
                   sec "__swift3_builtin" 4160 0;
                   sec "__swift3_typeref" 4160 32;
                   sec "__swift3_reflstr" 4192 16 ] |}.

(** An object with neither a typeref nor a reflection strings section. *)
Definition fieldOnly : ObjectFile :=
  {| sections := [ sec "__swift3_fieldmd" 4096 64;
                   sec "__swift3_assocty" 4160 8 ] |}.

(** A universal binary with two slices. *)
Definition twoSlices : MachOUniversalBinary :=
  {| objects := [ {| getArchTypeName := "x86_64"; getAsObjectFile := fieldOnly |};
                  {| getArchTypeName := "arm64"; getAsObjectFile := requiredOnly |} ] |}.

(** A file system with a flat object, a universal binary, a text file and
    a file that cannot be read. *)
Definition disk : FileSystem :=
  fun path =>
    if String.eqb path "flat.o" then Some (Holds (IsObjectFile requiredOnly))
    else if String.eqb path "fat" then Some (Holds (IsMachOUniversalBinary twoSlices))
    else if String.eqb path "notes.txt" then Some Unrecognized
    else if String.eqb path "secret" then Some Unreadable
    else None.

(** The library's texts, as far as the samples need them. *)
Definition sampleMessage (e : error_code) : string :=
  match e with
  | no_such_file_or_directory => "No such file or directory"
  | permission_denied => "Permission denied"
  | invalid_file_type => "The file was not recognized as a valid object file"
  | arch_not_found => "No object file for requested architecture"
  end.

(** ** Further vocabulary and samples *)

(** Does a section answer to one of the names: the test of the inner loop
    of [getSectionRef] on that section. *)
Definition answers (names : list string) (section : Section) : bool :=
  equalsAny (getName section) names.

Definition categories : list SectionCategory :=
  [Field; AssociatedType; BuiltinType; TypeRef; ReflectionStrings].

(** The ten names the driver ever asks for. *)
Definition allAliases : list string := flat_map aliases categories.

(** [requiredOnly] with its section table in the opposite order. *)
Definition requiredOnlyReversed : ObjectFile :=
  {| sections := rev (sections requiredOnly) |}.

(** An object whose associated type section is there, but whose contents
    are the default [StringRef]: what a failed [getContents] leaves. *)
Definition nullAssocty : ObjectFile :=
  {| sections := [ sec "__swift3_fieldmd" 4096 64;
                   sec "__swift3_assocty" 0 0;
                   sec "__swift3_typeref" 4160 32;
                   sec "__swift3_reflstr" 4192 16 ] |}.

(** An object whose field section header places its 32 bytes across the
    top of the address space: 16 bytes below it, so that the end pointer
    wraps around to 16. *)
Definition wrapping : ObjectFile :=
  {| sections := [ sec "__swift3_fieldmd" 18446744073709551600 32;
                   sec "__swift3_typeref" 4160 32;
                   sec "__swift3_reflstr" 4192 16 ] |}.

(** A file system in which every path leads to the flat object
    [requiredOnly]. *)
Definition flatDisk : FileSystem :=
  fun _ => Some (Holds (IsObjectFile requiredOnly)).

(** What a run started on [w] leaves, given what the same run leaves when
    started on empty streams. *)
Definition after (w d : Streams) : Streams :=
  {| cerr := cerr w ++ cerr d; cout := cout w ++ cout d |}.

(** ** Properties of the lookup *)

Lemma equalsAny_In (n : string) (names : list string) :
  equalsAny n names = true <-> In n names.
Proof.
  induction names as [|d rest IH]; simpl.
  - split; [discriminate | tauto].
  - destruct (String.eqb_spec n d) as [->|Hne].
    + split; auto.
    + rewrite IH. split; [now right | intros [Hd|Hr]; [congruence | exact Hr]].
Qed.

Lemma equalsAny_not_In (n : string) (names : list string) :
  equalsAny n names = false <-> ~ In n names.
Proof.
  rewrite <- equalsAny_In. destruct (equalsAny n names); split; congruence.
Qed.

Lemma scanSections_Some (table : list Section) (names : list string) (s : Section) :
  scanSections table names = Some s <->
  exists before after,
    table = before ++ s :: after /\
    In (getName s) names /\
    Forall (fun t => ~ In (getName t) names) before.
Proof.
  induction table as [|t rest IH]; simpl.
  - split; [discriminate|].
    intros (before & after & E & _). destruct before; discriminate.
  - destruct (equalsAny (getName t) names) eqn:E.
    + split.
      * intros [= ->]. exists [], rest. repeat split; auto.
        now apply equalsAny_In.
      * intros (before & after & Et & Hin & Hpre).
        destruct before as [|b before]; simpl in Et; injection Et as -> Et.
        -- reflexivity.
        -- apply Forall_inv in Hpre. apply equalsAny_In in E. contradiction.
    + rewrite IH. split.
      * intros (before & after & -> & Hin & Hpre).
        exists (t :: before), after. repeat split; auto.
        constructor; [now apply equalsAny_not_In | exact Hpre].
      * intros (before & after & Et & Hin & Hpre).
        destruct before as [|b before]; simpl in Et; injection Et as -> Et.
        -- apply equalsAny_In in Hin. congruence.
        -- exists before, after. repeat split; auto.
           now apply Forall_inv_tail in Hpre.
Qed.

Lemma scanSections_None (table : list Section) (names : list string) :
  scanSections table names = None <->
  Forall (fun t => ~ In (getName t) names) table.
Proof.
  induction table as [|t rest IH]; simpl.
  - split; auto.
  - destruct (equalsAny (getName t) names) eqn:E.
    + split; [discriminate|].
      intros H. apply Forall_inv in H. apply equalsAny_In in E. contradiction.
    + rewrite IH. split.
      * intros H. constructor; [now apply equalsAny_not_In | exact H].
      * apply Forall_inv_tail.
Qed.

Lemma scanSections_ext (table : list Section) (names names' : list string) :
  (forall n, In n names <-> In n names') ->
  scanSections table names = scanSections table names'.
Proof.
  intros Hsame. induction table as [|t rest IH]; simpl; [reflexivity|].
  assert (E : equalsAny (getName t) names = equalsAny (getName t) names').
  { destruct (equalsAny (getName t) names') eqn:E'.
    - apply equalsAny_In, Hsame, equalsAny_In, E'.
    - apply equalsAny_not_In. intros Hin. apply equalsAny_not_In in E'.
      apply E', Hsame, Hin. }
  rewrite E, IH. reflexivity.
Qed.

(** ** The driver, case by case *)

Lemma present_or_missing (objectFile : ObjectFile) (c : SectionCategory) :
  present objectFile c \/ missing objectFile c.
Proof.
  unfold present, missing.
  destruct (getSectionRef objectFile (aliases c)); [left; discriminate | now right].
Qed.

Lemma dumpSectionsOf_no_field binaryFilename objectFile w :
  missing objectFile Field ->
  dumpSectionsOf binaryFilename objectFile w =
  (Continue EXIT_FAILURE, reportMissing binaryFilename Field w).
Proof.
  unfold missing, dumpSectionsOf; simpl aliases. intros ->. reflexivity.
Qed.

Lemma dumpSectionsOf_no_typeref binaryFilename objectFile w :
  present objectFile Field ->
  missing objectFile TypeRef ->
  dumpSectionsOf binaryFilename objectFile w =
  (Continue EXIT_FAILURE, reportMissing binaryFilename TypeRef w).
Proof.
  unfold present, missing, dumpSectionsOf; simpl aliases. intros Hf ->.
  destruct (getSectionRef objectFile _); [reflexivity | contradiction].
Qed.

Lemma dumpSectionsOf_no_reflstr binaryFilename objectFile w :
  present objectFile Field ->
  present objectFile TypeRef ->
  missing objectFile ReflectionStrings ->
  dumpSectionsOf binaryFilename objectFile w =
  (Continue EXIT_FAILURE, reportMissing binaryFilename ReflectionStrings w).
Proof.
  unfold present, missing, dumpSectionsOf; simpl aliases. intros Hf Ht ->.
  destruct (getSectionRef objectFile ["__swift3_fieldmd"; _]); [|contradiction].
  destruct (getSectionRef objectFile ["__swift3_typeref"; _]); [|contradiction].
  reflexivity.
Qed.

Lemma dumpSectionsOf_complete binaryFilename objectFile w :
  present objectFile Field ->
  present objectFile TypeRef ->
  present objectFile ReflectionStrings ->
  dumpSectionsOf binaryFilename objectFile w =
  (Continue EXIT_SUCCESS, dumped (bundleOf binaryFilename objectFile) w).
Proof.
  unfold present, dumpSectionsOf, bundleOf, located; simpl aliases.
  intros Hf Ht Hr.
  destruct (getSectionRef objectFile ["__swift3_fieldmd"; _]); [|contradiction].
  destruct (getSectionRef objectFile ["__swift3_typeref"; _]); [|contradiction].
  destruct (getSectionRef objectFile ["__swift3_reflstr"; _]); [|contradiction].
  reflexivity.
Qed.

Lemma end_no_wrap (contents : StringRef) :
  withinAddressSpace contents ->
  end_ contents = Data contents + Z.of_N (Length contents).
Proof.
  intros [Hdata Hend]. unfold end_. apply Z.mod_small. lia.
Qed.

Lemma sectionOf_ordered (contents : StringRef) :
  withinAddressSpace contents ->
  Begin (sectionOf contents) <= End_ (sectionOf contents).
Proof.
  intros Hin. unfold sectionOf, begin_; simpl.
  rewrite (end_no_wrap contents Hin). lia.
Qed.

Lemma sectionOf_nonempty (contents : StringRef) :
  withinAddressSpace contents ->
  Begin (sectionOf contents) < End_ (sectionOf contents) <->
  (0 < Length contents)%N.
Proof.
  intros Hin. unfold sectionOf, begin_; simpl.
  rewrite (end_no_wrap contents Hin). lia.
Qed.


Lemma rangeOf_bundleOf binaryFilename objectFile c :
  rangeOf (bundleOf binaryFilename objectFile) c = located objectFile c.
Proof. destruct c; reflexivity. Qed.

(** The three diagnostics tell the required categories apart. *)
Lemma missingText_inj (c c' : SectionCategory) :
  required c = true -> required c' = true ->
  missingText c = missingText c' -> c = c'.
Proof.
  destruct c, c'; simpl; intros; try reflexivity; discriminate.
Qed.

(** ** The lookup *)

(** C1.  [getSectionRef] walks the section table in declaration order and
    returns the first section whose name is equal, as a string, to one of
    the names asked for: the table splits into sections that answer to none
    of the names, then the returned section.  When no section's name is
    equal to any alias it returns the null [SectionRef]. *)
Theorem getSectionRef_first_exact_match
    (objectFile : ObjectFile) (anySectionNames : list string) :
  match getSectionRef objectFile anySectionNames with
  | Some section =>
      exists before after,
        sections objectFile = before ++ section :: after /\
        (exists alias, In alias anySectionNames /\ getName section = alias) /\
        Forall (fun t => forall alias, In alias anySectionNames ->
                                       getName t <> alias) before
  | None =>
      Forall (fun t => forall alias, In alias anySectionNames ->
                                     getName t <> alias) (sections objectFile)
  end.
Proof.
  unfold getSectionRef.
  destruct (scanSections (sections objectFile) anySectionNames) as [s|] eqn:E.
  - apply scanSections_Some in E as (before & after & Et & Hin & Hpre).
    exists before, after. repeat split; auto.
    + exists (getName s). auto.
    + eapply Forall_impl; [|exact Hpre]. intros t Ht alias Ha Heq. subst alias. auto.
  - apply scanSections_None in E.
    eapply Forall_impl; [|exact E]. intros t Ht alias Ha Heq. subst alias. auto.
Qed.

(** A name that merely begins with, contains, or differs in case from an
    alias is no match. *)
Example getSectionRef_near_misses :
  getSectionRef
    {| sections := [ sec "__swift3_fieldmd2" 16 4;
                     sec "__swift3_field" 32 4;
                     sec "__SWIFT3_FIELDMD" 48 4;
                     sec "x.swift3_fieldmd" 64 4 ] |}
    (aliases Field) = None.
Proof. reflexivity. Qed.

(** Table order decides, not alias order: the second alias wins when its
    section comes first. *)
Example getSectionRef_table_order :
  getSectionRef
    {| sections := [ sec ".swift3_fieldmd" 16 4; sec "__swift3_fieldmd" 32 4 ] |}
    (aliases Field) = Some (sec ".swift3_fieldmd" 16 4).
Proof. reflexivity. Qed.

(** C7.  Reordering the alias list does not change which section
    [getSectionRef] returns. *)
Theorem getSectionRef_alias_order
    (objectFile : ObjectFile) (names names' : list string) :
  Permutation names names' ->
  getSectionRef objectFile names = getSectionRef objectFile names'.
Proof.
  intros Hperm. unfold getSectionRef. apply scanSections_ext.
  intros n. split; apply Permutation_in; [exact Hperm | now apply Permutation_sym].
Qed.

Lemma getSectionRef_alias_order_witness :
  Permutation [".swift3_fieldmd"; "__swift3_fieldmd"] (aliases Field) /\
  getSectionRef emptyField [".swift3_fieldmd"; "__swift3_fieldmd"] =
  getSectionRef emptyField (aliases Field).
Proof.
  split.
  - apply perm_swap.
  - apply (getSectionRef_alias_order emptyField). apply perm_swap.
Defined.

(** ** The driver on one object file *)

Lemma required_cases (P : SectionCategory -> Prop) :
  (forall c, required c = true -> P c) ->
  P Field /\ P TypeRef /\ P ReflectionStrings.
Proof. intros H. repeat split; apply H; reflexivity. Qed.

Lemma dumpSectionsOf_returns binaryFilename objectFile w :
  exists status w',
    dumpSectionsOf binaryFilename objectFile w = (Continue status, w').
Proof.
  destruct (present_or_missing objectFile Field) as [Hf|Hf].
  2:{ eexists _, _. now apply dumpSectionsOf_no_field. }
  destruct (present_or_missing objectFile TypeRef) as [Ht|Ht].
  2:{ eexists _, _. now apply dumpSectionsOf_no_typeref. }
  destruct (present_or_missing objectFile ReflectionStrings) as [Hr|Hr].
  2:{ eexists _, _. now apply dumpSectionsOf_no_reflstr. }
  eexists _, _. now apply dumpSectionsOf_complete.
Qed.

(** C2.  When some required category (Field, TypeRef, ReflectionStrings) is
    missing from the object under both of its names, the run returns
    [EXIT_FAILURE], having written to [std::cerr] the file name followed by
    the diagnostic of a required category that is indeed missing, and
    nothing is handed to the builder or dumped to [std::cout]. *)
Theorem missing_required_section_fails
    (binaryFilename : string) (objectFile : ObjectFile) (w : Streams) :
  (exists c, required c = true /\ missing objectFile c) ->
  exists c,
    required c = true /\ missing objectFile c /\
    dumpSectionsOf binaryFilename objectFile w =
      (Continue EXIT_FAILURE,
       {| cerr := (cerr w ++ binaryFilename) ++ missingText c;
          cout := cout w |}).
Proof.
  intros (c0 & Hreq & Hmiss).
  destruct (present_or_missing objectFile Field) as [Hf|Hf].
  2:{ exists Field. repeat split; auto. now apply dumpSectionsOf_no_field. }
  destruct (present_or_missing objectFile TypeRef) as [Ht|Ht].
  2:{ exists TypeRef. repeat split; auto. now apply dumpSectionsOf_no_typeref. }
  destruct (present_or_missing objectFile ReflectionStrings) as [Hr|Hr].
  2:{ exists ReflectionStrings. repeat split; auto.
      now apply dumpSectionsOf_no_reflstr. }
  destruct c0; try discriminate; contradiction.
Qed.

Lemma missing_required_section_fails_witness :
  (exists c, required c = true /\ missing fieldOnly c) /\
  exists c,
    required c = true /\ missing fieldOnly c /\
    dumpSectionsOf "a.out" fieldOnly startup =
      (Continue EXIT_FAILURE,
       {| cerr := (cerr startup ++ "a.out") ++ missingText c;
          cout := cout startup |}).
Proof.
  assert (H : exists c, required c = true /\ missing fieldOnly c).
  { exists ReflectionStrings. split; reflexivity. }
  split; [exact H|].
  exact (missing_required_section_fails "a.out" fieldOnly startup H).
Defined.

(** C6.  With several required categories missing, the diagnostic is that
    of the one that comes first in the order Field, TypeRef,
    ReflectionStrings; and when no required category is missing the run
    succeeds, whatever the lookups of AssociatedType and BuiltinType gave. *)
Theorem first_missing_required_is_reported
    (binaryFilename : string) (objectFile : ObjectFile) (w : Streams) :
  (forall c,
     required c = true ->
     missing objectFile c ->
     (forall c', required c' = true -> (rank c' < rank c)%nat ->
                 present objectFile c') ->
     dumpSectionsOf binaryFilename objectFile w =
       (Continue EXIT_FAILURE, reportMissing binaryFilename c w)) /\
  ((forall c, required c = true -> present objectFile c) ->
   dumpSectionsOf binaryFilename objectFile w =
     (Continue EXIT_SUCCESS, dumped (bundleOf binaryFilename objectFile) w)).
Proof.
  split.
  - intros c Hreq Hmiss Hbefore. destruct c; try discriminate.
    + now apply dumpSectionsOf_no_field.
    + apply dumpSectionsOf_no_typeref; [|exact Hmiss].
      apply Hbefore; [reflexivity | simpl; lia].
    + apply dumpSectionsOf_no_reflstr; [| |exact Hmiss];
        (apply Hbefore; [reflexivity | simpl; lia]).
  - intros Hall. apply required_cases in Hall as (Hf & Ht & Hr).
    now apply dumpSectionsOf_complete.
Qed.

Lemma first_missing_required_is_reported_witness :
  (missing fieldOnly TypeRef /\ missing fieldOnly ReflectionStrings /\
   missing fieldOnly BuiltinType /\
   dumpSectionsOf "a.out" fieldOnly startup =
     (Continue EXIT_FAILURE, reportMissing "a.out" TypeRef startup)) /\
  (missing requiredOnly AssociatedType /\ missing requiredOnly BuiltinType /\
   dumpSectionsOf "a.out" requiredOnly startup =
     (Continue EXIT_SUCCESS, dumped (bundleOf "a.out" requiredOnly) startup)).
Proof.
  split.
  - split; [reflexivity|]. split; [reflexivity|]. split; [reflexivity|].
    apply (proj1 (first_missing_required_is_reported "a.out" fieldOnly startup)
             TypeRef).
    + reflexivity.
    + reflexivity.
    + intros c' Hreq Hlt.
      destruct c'; simpl in Hreq, Hlt;
        try discriminate; try lia; vm_compute; discriminate.
  - split; [reflexivity|]. split; [reflexivity|].
    apply (proj2 (first_missing_required_is_reported "a.out" requiredOnly startup)).
    intros c Hreq.
    destruct c; simpl in Hreq; try discriminate; vm_compute; discriminate.
Defined.

(** C3, as stated, fails: here all three required sections are there, the
    run succeeds, and yet no bundle with a non-empty range for every
    required category was handed over, since the field section found has
    length zero. *)
Lemma empty_required_section_counterexample :
  (forall c, required c = true -> present emptyField c) /\
  ~ (exists info,
       dumpSectionsOf "a.out" emptyField startup =
         (Continue EXIT_SUCCESS, dumped info startup) /\
       (forall c, required c = true ->
                  Begin (rangeOf info c) < End_ (rangeOf info c)) /\
       (forall c, required c = false ->
                  Begin (rangeOf info c) < End_ (rangeOf info c) \/
                  rangeOf info c = absent)).
Proof.
  split.
  - intros c Hreq.
    destruct c; simpl in Hreq; try discriminate; vm_compute; discriminate.
  - intros (info & Hrun & Hreq & _).
    vm_compute in Hrun. injection Hrun as <-.
    specialize (Hreq Field eq_refl). vm_compute in Hreq. discriminate.
Qed.

(** C3, amended.  When each required category is present under one of its
    names, the run succeeds and hands over one bundle, named after the
    binary, in which a category maps to the bytes of the first section
    answering to one of its names: start is the pointer to its contents and
    end is that pointer plus the length, in 64-bit pointer arithmetic.
    Where those contents do not wrap around the address space, start is no
    greater than end, and below end exactly when the section is not empty.
    A category that is answered by no section is optional and maps to the
    absent range. *)
Theorem complete_table_yields_bundle
    (binaryFilename : string) (objectFile : ObjectFile) (w : Streams) :
  (forall c, required c = true -> present objectFile c) ->
  exists info,
    dumpSectionsOf binaryFilename objectFile w =
      (Continue EXIT_SUCCESS,
       {| cerr := cerr w;
          cout := cout w ++ [ {| ReflectionInfos := [info] |} ] |}) /\
    ImageName info = binaryFilename /\
    forall c,
      match getSectionRef objectFile (aliases c) with
      | Some section =>
          Begin (rangeOf info c) = Data (getContents section) /\
          End_ (rangeOf info c) =
            (Data (getContents section) + Z.of_N (Length (getContents section)))
            mod 2 ^ 64 /\
          (withinAddressSpace (getContents section) ->
           Begin (rangeOf info c) <= End_ (rangeOf info c) /\
           (Begin (rangeOf info c) < End_ (rangeOf info c) <->
            (0 < Length (getContents section))%N))
      | None =>
          required c = false /\ rangeOf info c = absent
      end.
Proof.
  intros Hall. exists (bundleOf binaryFilename objectFile).
  split; [|split; [reflexivity|]].
  - apply required_cases in Hall as (Hf & Ht & Hr).
    now apply dumpSectionsOf_complete.
  - intros c. rewrite rangeOf_bundleOf. unfold located.
    destruct (getSectionRef objectFile (aliases c)) as [section|] eqn:E.
    + split; [reflexivity|]. split; [reflexivity|].
      intros Hin. split.
      * now apply sectionOf_ordered.
      * now apply sectionOf_nonempty.
    + split; [|reflexivity].
      destruct (required c) eqn:Hreq; [|reflexivity].
      exfalso. apply (Hall c Hreq). exact E.
Qed.

Lemma complete_table_yields_bundle_witness :
  (forall c, required c = true -> present emptyField c) /\
  exists info,
    dumpSectionsOf "a.out" emptyField startup =
      (Continue EXIT_SUCCESS,
       {| cerr := cerr startup;
          cout := cout startup ++ [ {| ReflectionInfos := [info] |} ] |}) /\
    ImageName info = "a.out" /\
    forall c,
      match getSectionRef emptyField (aliases c) with
      | Some section =>
          Begin (rangeOf info c) = Data (getContents section) /\
          End_ (rangeOf info c) =
            (Data (getContents section) + Z.of_N (Length (getContents section)))
            mod 2 ^ 64 /\
          (withinAddressSpace (getContents section) ->
           Begin (rangeOf info c) <= End_ (rangeOf info c) /\
           (Begin (rangeOf info c) < End_ (rangeOf info c) <->
            (0 < Length (getContents section))%N))
      | None =>
          required c = false /\ rangeOf info c = absent
      end.
Proof.
  assert (H : forall c, required c = true -> present emptyField c).
  { intros c Hreq.
    destruct c; simpl in Hreq; try discriminate; vm_compute; discriminate. }
  split; [exact H|].
  exact (complete_table_yields_bundle "a.out" emptyField startup H).
Defined.

(** C4.  When every required category is present, the run succeeds, writes
    nothing to [std::cerr], and in the bundle handed over each optional
    category (AssociatedType, BuiltinType) that is missing from the object
    is the absent range: start and end both null. *)
Theorem optional_absence_is_recorded
    (binaryFilename : string) (objectFile : ObjectFile) (w : Streams) :
  (forall c, required c = true -> present objectFile c) ->
  exists info,
    dumpSectionsOf binaryFilename objectFile w =
      (Continue EXIT_SUCCESS,
       {| cerr := cerr w;
          cout := cout w ++ [ {| ReflectionInfos := [info] |} ] |}) /\
    forall c,
      required c = false -> missing objectFile c ->
      rangeOf info c = {| Begin := nullptr; End_ := nullptr |}.
Proof.
  intros Hall. exists (bundleOf binaryFilename objectFile). split.
  - apply required_cases in Hall as (Hf & Ht & Hr).
    now apply dumpSectionsOf_complete.
  - intros c _ Hmiss. rewrite rangeOf_bundleOf. unfold located.
    unfold missing in Hmiss. rewrite Hmiss. reflexivity.
Qed.

Lemma optional_absence_is_recorded_witness :
  (forall c, required c = true -> present requiredOnly c) /\
  exists info,
    dumpSectionsOf "a.out" requiredOnly startup =
      (Continue EXIT_SUCCESS,
       {| cerr := cerr startup;
          cout := cout startup ++ [ {| ReflectionInfos := [info] |} ] |}) /\
    forall c,
      required c = false -> missing requiredOnly c ->
      rangeOf info c = {| Begin := nullptr; End_ := nullptr |}.
Proof.
  assert (H : forall c, required c = true -> present requiredOnly c).
  { intros c Hreq.
    destruct c; simpl in Hreq; try discriminate; vm_compute; discriminate. }
  split; [exact H|].
  exact (optional_absence_is_recorded "a.out" requiredOnly startup H).
Defined.

(** The scenario of the specification: exactly the three required
    sections, and the two optional categories come out absent. *)
Example requiredOnly_bundle :
  dumpSectionsOf "a.out" requiredOnly startup =
  (Continue EXIT_SUCCESS,
   {| cerr := "";
      cout := [ {| ReflectionInfos :=
                     [ {| ImageName := "a.out";
                          fieldmd := {| Begin := 4096; End_ := 4160 |};
                          assocty := {| Begin := 0; End_ := 0 |};
                          builtin := {| Begin := 0; End_ := 0 |};
                          typeref := {| Begin := 4160; End_ := 4192 |};
                          reflstr := {| Begin := 4192; End_ := 4208 |} |} ] |} ] |}).
Proof. reflexivity. Qed.

(** An optional section that is there but empty is recorded with its own
    address: start = end, and not the absent range. *)
Example emptyBuiltin_bundle :
  dumpSectionsOf "a.out" emptyBuiltin startup =
    (Continue EXIT_SUCCESS, dumped (bundleOf "a.out" emptyBuiltin) startup) /\
  builtin (bundleOf "a.out" emptyBuiltin) = {| Begin := 4160; End_ := 4160 |} /\
  builtin (bundleOf "a.out" emptyBuiltin) <> absent.
Proof. repeat split. discriminate. Qed.




(** ** The driver from the file name on *)

Lemma unwrap_Error (message : error_code -> string) (T : Type)
    (e : error_code) (w : Streams) :
  unwrap message (Error e : ErrorOr T) w =
  (Exit EXIT_FAILURE, reportError message e w).
Proof. reflexivity. Qed.

Lemma findObjectForArch_no_match (slices : list ObjectForArch) (arch : string) :
  (forall slice, In slice slices -> getArchTypeName slice <> arch) ->
  findObjectForArch slices arch = Error arch_not_found.
Proof.
  induction slices as [|slice rest IH]; intros Hnone; simpl; [reflexivity|].
  destruct (String.eqb_spec (getArchTypeName slice) arch) as [Heq|_].
  - exfalso. apply (Hnone slice); [now left | exact Heq].
  - apply IH. intros s Hs. apply Hnone. now right.
Qed.

Lemma doDump_universal (message : error_code -> string) (fs : FileSystem)
    (binaryFilename arch : string) (universal : MachOUniversalBinary)
    (w : Streams) :
  fs binaryFilename = Some (Holds (IsMachOUniversalBinary universal)) ->
  doDumpReflectionSections message fs binaryFilename arch w =
  match getObjectForArch universal arch with
  | Value objectFile => dumpSectionsOf binaryFilename objectFile w
  | Error e => (Exit EXIT_FAILURE, reportError message e w)
  end.
Proof.
  intros Hfile. unfold doDumpReflectionSections, createBinary.
  rewrite Hfile. unfold bind at 1. simpl.
  unfold bind. destruct (getObjectForArch universal arch); reflexivity.
Qed.

Lemma doDump_flat (message : error_code -> string) (fs : FileSystem)
    (binaryFilename arch : string) (o : ObjectFile) (w : Streams) :
  fs binaryFilename = Some (Holds (IsObjectFile o)) ->
  doDumpReflectionSections message fs binaryFilename arch w =
  dumpSectionsOf binaryFilename o w.
Proof.
  intros Hfile. unfold doDumpReflectionSections, createBinary.
  rewrite Hfile. reflexivity.
Qed.

(** C5.  For a universal binary none of whose slices declares exactly the
    requested architecture, the selector yields [arch_not_found], [unwrap]
    reports it and calls [exit (EXIT_FAILURE)]: nothing but that report is
    written, whatever the slices hold, and nothing is dumped. *)
Theorem unknown_architecture_fails
    (message : error_code -> string) (fs : FileSystem)
    (binaryFilename arch : string) (universal : MachOUniversalBinary)
    (w : Streams) :
  fs binaryFilename = Some (Holds (IsMachOUniversalBinary universal)) ->
  (forall slice, In slice (objects universal) ->
                 getArchTypeName slice <> arch) ->
  getObjectForArch universal arch = Error arch_not_found /\
  doDumpReflectionSections message fs binaryFilename arch w =
    (Exit EXIT_FAILURE,
     {| cerr := ((cerr w ++ "swift-reflection-test error: ")
                 ++ message arch_not_found) ++ nl;
        cout := cout w |}) /\
  main message fs binaryFilename arch =
    (EXIT_FAILURE,
     {| cerr := ("swift-reflection-test error: " ++ message arch_not_found) ++ nl;
        cout := [] |}).
Proof.
  intros Hfile Hnone.
  assert (E : getObjectForArch universal arch = Error arch_not_found)
    by now apply findObjectForArch_no_match.
  split; [exact E|]. unfold main.
  rewrite !(doDump_universal message fs binaryFilename arch universal _ Hfile).
  rewrite E. split; reflexivity.
Qed.

Lemma unknown_architecture_fails_witness :
  disk "fat" = Some (Holds (IsMachOUniversalBinary twoSlices)) /\
  (forall slice, In slice (objects twoSlices) ->
                 getArchTypeName slice <> "armv7") /\
  getObjectForArch twoSlices "armv7" = Error arch_not_found /\
  doDumpReflectionSections sampleMessage disk "fat" "armv7" startup =
    (Exit EXIT_FAILURE,
     {| cerr := ((cerr startup ++ "swift-reflection-test error: ")
                 ++ sampleMessage arch_not_found) ++ nl;
        cout := cout startup |}) /\
  main sampleMessage disk "fat" "armv7" =
    (EXIT_FAILURE,
     {| cerr := ("swift-reflection-test error: "
                 ++ sampleMessage arch_not_found) ++ nl;
        cout := [] |}).
Proof.
  assert (Hnone : forall slice, In slice (objects twoSlices) ->
                                getArchTypeName slice <> "armv7").
  { intros slice [<-|[<-|[]]]; simpl; discriminate. }
  split; [reflexivity|]. split; [exact Hnone|].
  exact (unknown_architecture_fails sampleMessage disk "fat" "armv7"
           twoSlices startup eq_refl Hnone).
Defined.

(** The scenario of the specification: asking the same binary for
    ["arm64"] dumps the sections of the ["arm64"] slice. *)
Example arm64_slice_selected :
  doDumpReflectionSections sampleMessage disk "fat" "arm64" startup =
  dumpSectionsOf "fat" requiredOnly startup.
Proof. reflexivity. Qed.

(** C8.  A path that does not exist, cannot be read, or holds no
    recognised binary makes the loader fail; [unwrap] reports the error and
    calls [exit (EXIT_FAILURE)] before any slice is selected or section
    looked up, so nothing else is written and nothing is dumped. *)
Theorem unloadable_input_fails
    (message : error_code -> string) (fs : FileSystem)
    (path arch : string) (w : Streams) :
  fs path = None \/ fs path = Some Unreadable \/ fs path = Some Unrecognized ->
  exists e,
    createBinary fs path = Error e /\
    doDumpReflectionSections message fs path arch w =
      (Exit EXIT_FAILURE,
       {| cerr := ((cerr w ++ "swift-reflection-test error: ")
                   ++ message e) ++ nl;
          cout := cout w |}) /\
    main message fs path arch =
      (EXIT_FAILURE,
       {| cerr := ("swift-reflection-test error: " ++ message e) ++ nl;
          cout := [] |}).
Proof.
  unfold main, doDumpReflectionSections, createBinary.
  intros [H|[H|H]]; rewrite H;
    [exists no_such_file_or_directory
    |exists permission_denied
    |exists invalid_file_type]; repeat split; reflexivity.
Qed.

Lemma unloadable_input_fails_witness :
  (disk "notes.txt" = None \/ disk "notes.txt" = Some Unreadable \/
   disk "notes.txt" = Some Unrecognized) /\
  exists e,
    createBinary disk "notes.txt" = Error e /\
    doDumpReflectionSections sampleMessage disk "notes.txt" "x86_64" startup =
      (Exit EXIT_FAILURE,
       {| cerr := ((cerr startup ++ "swift-reflection-test error: ")
                   ++ sampleMessage e) ++ nl;
          cout := cout startup |}) /\
    main sampleMessage disk "notes.txt" "x86_64" =
      (EXIT_FAILURE,
       {| cerr := ("swift-reflection-test error: " ++ sampleMessage e) ++ nl;
          cout := [] |}).
Proof.
  assert (H : disk "notes.txt" = None \/ disk "notes.txt" = Some Unreadable \/
              disk "notes.txt" = Some Unrecognized).
  { right; right; reflexivity. }
  split; [exact H|].
  exact (unloadable_input_fails sampleMessage disk "notes.txt" "x86_64" startup H).
Defined.

(** C10.  When the loaded binary is itself an object file, the run is the
    five lookups in that object whatever architecture was asked for: the
    selector is not consulted and the run never ends in [unwrap]'s [exit],
    so the [arch_not_found] report can come from a universal binary only. *)
Theorem flat_object_ignores_architecture
    (message : error_code -> string) (fs : FileSystem)
    (binaryFilename arch : string) (o : ObjectFile) (w : Streams) :
  fs binaryFilename = Some (Holds (IsObjectFile o)) ->
  doDumpReflectionSections message fs binaryFilename arch w =
    dumpSectionsOf binaryFilename o w /\
  (forall arch',
     doDumpReflectionSections message fs binaryFilename arch' w =
     doDumpReflectionSections message fs binaryFilename arch w) /\
  (exists status w',
     doDumpReflectionSections message fs binaryFilename arch w =
     (Continue status, w')).
Proof.
  intros Hfile. split; [|split].
  - now apply doDump_flat.
  - intros arch'. now rewrite !(doDump_flat message fs binaryFilename _ o w Hfile).
  - rewrite (doDump_flat message fs binaryFilename arch o w Hfile).
    apply dumpSectionsOf_returns.
Qed.

Lemma flat_object_ignores_architecture_witness :
  disk "flat.o" = Some (Holds (IsObjectFile requiredOnly)) /\
  doDumpReflectionSections sampleMessage disk "flat.o" "armv7" startup =
    dumpSectionsOf "flat.o" requiredOnly startup /\
  (forall arch',
     doDumpReflectionSections sampleMessage disk "flat.o" arch' startup =
     doDumpReflectionSections sampleMessage disk "flat.o" "armv7" startup) /\
  (exists status w',
     doDumpReflectionSections sampleMessage disk "flat.o" "armv7" startup =
     (Continue status, w')).
Proof.
  split; [reflexivity|].
  exact (flat_object_ignores_architecture sampleMessage disk "flat.o" "armv7"
           requiredOnly startup eq_refl).
Defined.

(** Whenever the run ends in [exit], either the loader failed or the
    binary is universal and the selector failed. *)
Lemma exit_only_from_unwrap
    (message : error_code -> string) (fs : FileSystem)
    (binaryFilename arch : string) (w w' : Streams) (status : Z) :
  doDumpReflectionSections message fs binaryFilename arch w = (Exit status, w') ->
  (exists e, createBinary fs binaryFilename = Error e) \/
  (exists universal e,
     createBinary fs binaryFilename = Value (IsMachOUniversalBinary universal) /\
     getObjectForArch universal arch = Error e).
Proof.
  unfold doDumpReflectionSections.
  destruct (createBinary fs binaryFilename) as [e|[o|universal]] eqn:E.
  - intros _. left. now exists e.
  - unfold bind; simpl.
    destruct (dumpSectionsOf_returns binaryFilename o w) as (s & w1 & ->).
    discriminate.
  - unfold bind; simpl.
    destruct (getObjectForArch universal arch) as [e|objectFile] eqn:E'.
    + intros _. right. now exists universal, e.
    + simpl.
      destruct (dumpSectionsOf_returns binaryFilename objectFile w)
        as (s & w1 & ->).
      discriminate.
Qed.

(** ** More on the lookup *)

Lemma scanSections_app (t1 t2 : list Section) (names : list string) :
  scanSections (t1 ++ t2) names =
  match scanSections t1 names with
  | Some section => Some section
  | None => scanSections t2 names
  end.
Proof.
  induction t1 as [|s rest IH]; simpl; [reflexivity|].
  destruct (equalsAny (getName s) names); [reflexivity | exact IH].
Qed.

Lemma scanSections_filter (keep : Section -> bool) (table : list Section)
    (names : list string) :
  (forall s, In s table -> In (getName s) names -> keep s = true) ->
  scanSections (filter keep table) names = scanSections table names.
Proof.
  induction table as [|s rest IH]; intros Hkeep; simpl; [reflexivity|].
  assert (IH' : scanSections (filter keep rest) names = scanSections rest names).
  { apply IH. intros t Ht. apply Hkeep. now right. }
  destruct (equalsAny (getName s) names) eqn:E.
  - rewrite (Hkeep s (or_introl eq_refl)) by now apply equalsAny_In.
    simpl. rewrite E. reflexivity.
  - destruct (keep s); simpl; [rewrite E|]; exact IH'.
Qed.

Lemma scanSections_hd (table : list Section) (names : list string) :
  scanSections table names = hd_error (filter (answers names) table).
Proof.
  induction table as [|s rest IH]; simpl; [reflexivity|].
  unfold answers at 1. destruct (equalsAny (getName s) names); [reflexivity | exact IH].
Qed.

Lemma Permutation_filter_keeps (A : Type) (f : A -> bool) (l l' : list A) :
  Permutation l l' -> Permutation (filter f l) (filter f l').
Proof.
  induction 1 as [|x l l' _ IH|x y l|l l' l'' _ IH1 _ IH2]; simpl.
  - constructor.
  - destruct (f x); [now constructor | exact IH].
  - destruct (f x), (f y); try reflexivity. apply perm_swap.
  - now transitivity (filter f l').
Qed.

Lemma short_Permutation_eq (A : Type) (l l' : list A) :
  (List.length l <= 1)%nat -> Permutation l l' -> l' = l.
Proof.
  destruct l as [|a [|b l]]; simpl; intros Hlen Hperm.
  - now apply Permutation_nil.
  - now apply Permutation_length_1_inv.
  - lia.
Qed.

(** X1.  With no name to look for, or no section to look at, the lookup
    yields the null [SectionRef]; and on an object without sections the
    driver stops at the first lookup, reporting the field section. *)
Theorem getSectionRef_nothing_to_find :
  (forall objectFile, getSectionRef objectFile [] = None) /\
  (forall names, getSectionRef {| sections := [] |} names = None) /\
  (forall binaryFilename w,
     dumpSectionsOf binaryFilename {| sections := [] |} w =
     (Continue EXIT_FAILURE,
      {| cerr := (cerr w ++ binaryFilename)
                 ++ (" doesn't have a field reflection section!" ++ nl);
         cout := cout w |})).
Proof.
  split; [|split].
  - intros [table]. unfold getSectionRef; simpl.
    induction table as [|s rest IH]; simpl; [reflexivity | exact IH].
  - reflexivity.
  - reflexivity.
Qed.

(** X2.  The lookup depends on the alias list only through the set of its
    names: listing a name twice, or in another place, changes nothing. *)
Theorem getSectionRef_alias_set
    (objectFile : ObjectFile) (names names' : list string) :
  (forall n, In n names <-> In n names') ->
  getSectionRef objectFile names = getSectionRef objectFile names'.
Proof.
  intros Hsame. unfold getSectionRef. now apply scanSections_ext.
Qed.

Lemma getSectionRef_alias_set_witness :
  (forall n, In n ["__swift3_fieldmd"; ".swift3_fieldmd"; "__swift3_fieldmd"]
             <-> In n [".swift3_fieldmd"; "__swift3_fieldmd"]) /\
  getSectionRef emptyField
    ["__swift3_fieldmd"; ".swift3_fieldmd"; "__swift3_fieldmd"] =
  getSectionRef emptyField [".swift3_fieldmd"; "__swift3_fieldmd"].
Proof.
  assert (H : forall n,
             In n ["__swift3_fieldmd"; ".swift3_fieldmd"; "__swift3_fieldmd"]
             <-> In n [".swift3_fieldmd"; "__swift3_fieldmd"]).
  { intros n; simpl; tauto. }
  split; [exact H|].
  exact (getSectionRef_alias_set emptyField _ _ H).
Defined.

(** X3.  On a section table made of two parts, the lookup is the lookup in
    the first part when that finds a section, and the lookup in the second
    part otherwise: sections placed behind a match never replace it, and
    sections that answer to no name may be put in front freely. *)
Theorem getSectionRef_app
    (before after : list Section) (names : list string) :
  getSectionRef {| sections := before ++ after |} names =
  match getSectionRef {| sections := before |} names with
  | Some section => Some section
  | None => getSectionRef {| sections := after |} names
  end.
Proof. unfold getSectionRef; simpl. apply scanSections_app. Qed.

(** X4.  When at most one section of the table answers to the names, the
    order of the table does not matter: every reordering of it gives the
    same lookup. *)
Theorem getSectionRef_table_order_irrelevant
    (objectFile objectFile' : ObjectFile) (names : list string) :
  Permutation (sections objectFile) (sections objectFile') ->
  (List.length (filter (answers names) (sections objectFile)) <= 1)%nat ->
  getSectionRef objectFile' names = getSectionRef objectFile names.
Proof.
  intros Hperm Hone. unfold getSectionRef. rewrite !scanSections_hd.
  f_equal. apply short_Permutation_eq; [exact Hone|].
  now apply Permutation_filter_keeps.
Qed.

Lemma getSectionRef_table_order_irrelevant_witness :
  Permutation (sections requiredOnly) (sections requiredOnlyReversed) /\
  (List.length (filter (answers (aliases TypeRef)) (sections requiredOnly)) <= 1)%nat /\
  getSectionRef requiredOnlyReversed (aliases TypeRef) =
  getSectionRef requiredOnly (aliases TypeRef).
Proof.
  assert (Hperm : Permutation (sections requiredOnly)
                              (sections requiredOnlyReversed))
    by apply Permutation_rev.
  assert (Hone : (List.length (filter (answers (aliases TypeRef))
                            (sections requiredOnly)) <= 1)%nat)
    by (vm_compute; lia).
  split; [exact Hperm|]. split; [exact Hone|].
  exact (getSectionRef_table_order_irrelevant requiredOnly requiredOnlyReversed
           (aliases TypeRef) Hperm Hone).
Defined.

(** X5.  The five alias lists share no name, so a section that is the
    answer for one category is never the answer for another. *)
Theorem one_section_one_category
    (objectFile : ObjectFile) (c c' : SectionCategory) (section : Section) :
  c <> c' ->
  getSectionRef objectFile (aliases c) = Some section ->
  getSectionRef objectFile (aliases c') <> Some section.
Proof.
  unfold getSectionRef. intros Hne H H'. apply Hne.
  apply scanSections_Some in H as (_ & _ & _ & Hin & _).
  apply scanSections_Some in H' as (_ & _ & _ & Hin' & _).
  destruct c, c'; try reflexivity; exfalso; simpl in Hin, Hin';
    repeat match goal with
           | H : _ \/ _ |- _ => destruct H
           | H : False |- _ => destruct H
           end; congruence.
Qed.

Lemma one_section_one_category_witness :
  Field <> TypeRef /\
  getSectionRef requiredOnly (aliases Field) =
    Some (sec "__swift3_fieldmd" 4096 64) /\
  getSectionRef requiredOnly (aliases TypeRef) <>
    Some (sec "__swift3_fieldmd" 4096 64).
Proof.
  assert (Hne : Field <> TypeRef) by discriminate.
  split; [exact Hne|]. split; [reflexivity|].
  exact (one_section_one_category requiredOnly Field TypeRef
           (sec "__swift3_fieldmd" 4096 64) Hne eq_refl).
Defined.

(** ** More on the driver *)

(** The driver sees an object only through its five lookups. *)
Lemma dumpSectionsOf_ext binaryFilename objectFile objectFile' w :
  (forall c, getSectionRef objectFile' (aliases c) =
             getSectionRef objectFile (aliases c)) ->
  dumpSectionsOf binaryFilename objectFile' w =
  dumpSectionsOf binaryFilename objectFile w.
Proof.
  intros Hsame.
  pose proof (Hsame Field) as Hf. pose proof (Hsame AssociatedType) as Ha.
  pose proof (Hsame BuiltinType) as Hb. pose proof (Hsame TypeRef) as Ht.
  pose proof (Hsame ReflectionStrings) as Hr.
  simpl aliases in Hf, Ha, Hb, Ht, Hr.
  unfold dumpSectionsOf. rewrite Hf, Ha, Hb, Ht, Hr. reflexivity.
Qed.

Lemma In_allAliases (c : SectionCategory) (n : string) :
  In n (aliases c) -> In n allAliases.
Proof.
  intros Hin. unfold allAliases. apply in_flat_map. exists c. split; [|exact Hin].
  destruct c; simpl; tauto.
Qed.

Lemma append_not_empty (s t : string) : t <> "" -> (s ++ t)%string <> "".
Proof. destruct s; simpl; [auto | discriminate]. Qed.

Lemma missingText_not_empty (c : SectionCategory) :
  required c = true -> missingText c <> "".
Proof. destruct c; simpl; discriminate. Qed.

(** X6.  Sections whose names are none of the ten aliases play no part:
    dropping any of them from the table leaves the whole run, status and
    output, as it was. *)
Theorem dumpSectionsOf_ignores_unrelated
    (binaryFilename : string) (objectFile : ObjectFile)
    (keep : Section -> bool) (w : Streams) :
  (forall section, In section (sections objectFile) ->
                   In (getName section) allAliases -> keep section = true) ->
  dumpSectionsOf binaryFilename
    {| sections := filter keep (sections objectFile) |} w =
  dumpSectionsOf binaryFilename objectFile w.
Proof.
  intros Hkeep. apply dumpSectionsOf_ext. intros c.
  unfold getSectionRef; simpl. apply scanSections_filter.
  intros s Hs Hin. apply Hkeep; [exact Hs|]. now apply (In_allAliases c).
Qed.

Lemma dumpSectionsOf_ignores_unrelated_witness :
  (forall section, In section (sections emptyField) ->
                   In (getName section) allAliases ->
                   negb (String.eqb (getName section) "__text") = true) /\
  dumpSectionsOf "a.out"
    {| sections := filter (fun section =>
                             negb (String.eqb (getName section) "__text"))
                          (sections emptyField) |} startup =
  dumpSectionsOf "a.out" emptyField startup.
Proof.
  assert (H : forall section, In section (sections emptyField) ->
                In (getName section) allAliases ->
                negb (String.eqb (getName section) "__text") = true).
  { intros section Hin Hname. simpl in Hin.
    repeat (destruct Hin as [<-|Hin]; [try reflexivity|]); try contradiction.
    exfalso. vm_compute in Hname.
    repeat (destruct Hname as [Hname|Hname]; [discriminate|]). exact Hname. }
  split; [exact H|].
  exact (dumpSectionsOf_ignores_unrelated "a.out" emptyField
           (fun section => negb (String.eqb (getName section) "__text"))
           startup H).
Defined.

(** X7.  When no category is answered by more than one section, the run
    does not depend on the order of the section table. *)
Theorem dumpSectionsOf_table_order_irrelevant
    (binaryFilename : string) (objectFile objectFile' : ObjectFile)
    (w : Streams) :
  Permutation (sections objectFile) (sections objectFile') ->
  (forall c, (List.length (filter (answers (aliases c)) (sections objectFile))
              <= 1)%nat) ->
  dumpSectionsOf binaryFilename objectFile' w =
  dumpSectionsOf binaryFilename objectFile w.
Proof.
  intros Hperm Hone. apply dumpSectionsOf_ext. intros c.
  unfold getSectionRef. rewrite !scanSections_hd.
  f_equal. apply short_Permutation_eq; [apply Hone|].
  now apply Permutation_filter_keeps.
Qed.

Lemma dumpSectionsOf_table_order_irrelevant_witness :
  Permutation (sections requiredOnly) (sections requiredOnlyReversed) /\
  (forall c, (List.length (filter (answers (aliases c)) (sections requiredOnly))
              <= 1)%nat) /\
  dumpSectionsOf "a.out" requiredOnlyReversed startup =
  dumpSectionsOf "a.out" requiredOnly startup.
Proof.
  assert (Hperm : Permutation (sections requiredOnly)
                              (sections requiredOnlyReversed))
    by apply Permutation_rev.
  assert (Hone : forall c,
             (List.length (filter (answers (aliases c)) (sections requiredOnly))
              <= 1)%nat)
    by (intros c; destruct c; vm_compute; lia).
  split; [exact Hperm|]. split; [exact Hone|].
  exact (dumpSectionsOf_table_order_irrelevant "a.out" requiredOnly
           requiredOnlyReversed startup Hperm Hone).
Defined.

(** With two sections answering to the field aliases, the order of the
    table does decide which one is recorded. *)
Example table_order_matters_with_two_answers :
  getSectionRef emptyField (aliases Field) =
    Some (sec "__swift3_fieldmd" 4096 0) /\
  getSectionRef {| sections := rev (sections emptyField) |} (aliases Field) =
    Some (sec ".swift3_fieldmd" 8192 8).
Proof. split; reflexivity. Qed.

(** X8.  The run returns [EXIT_SUCCESS] exactly when all three required
    categories are present in the object, and [EXIT_FAILURE] exactly when
    one of them is missing; it never returns anything else. *)
Theorem dumpSectionsOf_status
    (binaryFilename : string) (objectFile : ObjectFile) (w : Streams) :
  (fst (dumpSectionsOf binaryFilename objectFile w) = Continue EXIT_SUCCESS <->
   forall c, required c = true -> present objectFile c) /\
  (fst (dumpSectionsOf binaryFilename objectFile w) = Continue EXIT_FAILURE <->
   exists c, required c = true /\ missing objectFile c).
Proof.
  assert (Hex : forall c, missing objectFile c -> present objectFile c -> False)
    by (unfold missing, present; intros c -> H; now apply H).
  destruct (present_or_missing objectFile Field) as [Hf|Hf];
    [destruct (present_or_missing objectFile TypeRef) as [Ht|Ht];
     [destruct (present_or_missing objectFile ReflectionStrings) as [Hr|Hr]|]|].
  - rewrite dumpSectionsOf_complete by assumption. simpl. split; split.
    + intros _ c Hreq. destruct c; try discriminate; assumption.
    + reflexivity.
    + discriminate.
    + intros (c & Hreq & Hmiss). exfalso.
      destruct c; try discriminate; eapply Hex; eassumption.
  - rewrite dumpSectionsOf_no_reflstr by assumption. simpl. split; split.
    + discriminate.
    + intros Hall. exfalso. apply (Hex ReflectionStrings Hr). now apply Hall.
    + intros _. now exists ReflectionStrings.
    + reflexivity.
  - rewrite dumpSectionsOf_no_typeref by assumption. simpl. split; split.
    + discriminate.
    + intros Hall. exfalso. apply (Hex TypeRef Ht). now apply Hall.
    + intros _. now exists TypeRef.
    + reflexivity.
  - rewrite dumpSectionsOf_no_field by assumption. simpl. split; split.
    + discriminate.
    + intros Hall. exfalso. apply (Hex Field Hf). now apply Hall.
    + intros _. now exists Field.
    + reflexivity.
Qed.

Lemma dumpSectionsOf_success_inv binaryFilename objectFile w w' :
  dumpSectionsOf binaryFilename objectFile w = (Continue EXIT_SUCCESS, w') ->
  (forall c, required c = true -> present objectFile c) /\
  w' = dumped (bundleOf binaryFilename objectFile) w.
Proof.
  intros Hrun.
  destruct (present_or_missing objectFile Field) as [Hf|Hf].
  2:{ rewrite dumpSectionsOf_no_field in Hrun by assumption. discriminate. }
  destruct (present_or_missing objectFile TypeRef) as [Ht|Ht].
  2:{ rewrite dumpSectionsOf_no_typeref in Hrun by assumption. discriminate. }
  destruct (present_or_missing objectFile ReflectionStrings) as [Hr|Hr].
  2:{ rewrite dumpSectionsOf_no_reflstr in Hrun by assumption. discriminate. }
  rewrite dumpSectionsOf_complete in Hrun by assumption.
  split; [|congruence].
  intros c Hreq. destruct c; try discriminate; assumption.
Qed.

Lemma dumped_bundle_inv binaryFilename objectFile w info :
  dumpSectionsOf binaryFilename objectFile w =
    (Continue EXIT_SUCCESS,
     {| cerr := cerr w;
        cout := cout w ++ [ {| ReflectionInfos := [info] |} ] |}) ->
  info = bundleOf binaryFilename objectFile.
Proof.
  intros Hrun. apply dumpSectionsOf_success_inv in Hrun as (_ & Hw).
  unfold dumped in Hw. injection Hw as Hcout.
  apply app_inv_head in Hcout. congruence.
Qed.

(** X9.  Nothing of a section's extent is lost on the way into the bundle:
    from the range recorded for a category one reads back the pointer and
    the length of the contents of the section that answered for it, the
    length as end minus start in 64-bit arithmetic, also when the contents
    wrap around the address space. *)
Theorem bundle_recovers_contents
    (binaryFilename : string) (objectFile : ObjectFile) (w : Streams)
    (info : ReflectionInfo) (c : SectionCategory) (section : Section) :
  dumpSectionsOf binaryFilename objectFile w =
    (Continue EXIT_SUCCESS,
     {| cerr := cerr w;
        cout := cout w ++ [ {| ReflectionInfos := [info] |} ] |}) ->
  getSectionRef objectFile (aliases c) = Some section ->
  representable (getContents section) ->
  getContents section =
    {| Data := Begin (rangeOf info c);
       Length := Z.to_N ((End_ (rangeOf info c) - Begin (rangeOf info c))
                         mod 2 ^ 64) |}.
Proof.
  intros Hrun Hfound [Hdata Hlen]. apply dumped_bundle_inv in Hrun as ->.
  rewrite rangeOf_bundleOf. unfold located. rewrite Hfound.
  destruct (getContents section) as [data len].
  unfold sectionOf, begin_, end_, addressSpace in *; simpl in *. f_equal.
  rewrite Zminus_mod_idemp_l.
  replace (data + Z.of_N len - data) with (Z.of_N len) by lia.
  rewrite Z.mod_small by lia. now rewrite N2Z.id.
Qed.

Lemma bundle_recovers_contents_witness :
  dumpSectionsOf "a.out" wrapping startup =
    (Continue EXIT_SUCCESS,
     {| cerr := cerr startup;
        cout := cout startup
                ++ [ {| ReflectionInfos := [bundleOf "a.out" wrapping] |} ] |}) /\
  getSectionRef wrapping (aliases Field) =
    Some (sec "__swift3_fieldmd" 18446744073709551600 32) /\
  representable (getContents (sec "__swift3_fieldmd" 18446744073709551600 32)) /\
  getContents (sec "__swift3_fieldmd" 18446744073709551600 32) =
    {| Data := Begin (rangeOf (bundleOf "a.out" wrapping) Field);
       Length := Z.to_N ((End_ (rangeOf (bundleOf "a.out" wrapping) Field)
                          - Begin (rangeOf (bundleOf "a.out" wrapping) Field))
                         mod 2 ^ 64) |}.
Proof.
  assert (H : representable
                (getContents (sec "__swift3_fieldmd" 18446744073709551600 32))).
  { vm_compute. repeat split; discriminate || reflexivity. }
  split; [reflexivity|]. split; [reflexivity|]. split; [exact H|].
  exact (bundle_recovers_contents "a.out" wrapping startup
           (bundleOf "a.out" wrapping) Field
           (sec "__swift3_fieldmd" 18446744073709551600 32) eq_refl eq_refl H).
Defined.

(** X10.  When no section of the object has null contents, the absent
    range in a bundle means what it says: a category is recorded as
    [{nullptr, nullptr}] exactly when no section answers for it. *)
Theorem absent_range_means_missing
    (binaryFilename : string) (objectFile : ObjectFile) (w : Streams)
    (info : ReflectionInfo) (c : SectionCategory) :
  (forall section, In section (sections objectFile) ->
                   Data (getContents section) <> nullptr) ->
  dumpSectionsOf binaryFilename objectFile w =
    (Continue EXIT_SUCCESS,
     {| cerr := cerr w;
        cout := cout w ++ [ {| ReflectionInfos := [info] |} ] |}) ->
  (rangeOf info c = {| Begin := nullptr; End_ := nullptr |} <->
   missing objectFile c).
Proof.
  intros Hdata Hrun. apply dumped_bundle_inv in Hrun as ->.
  rewrite rangeOf_bundleOf. unfold located, missing.
  destruct (getSectionRef objectFile (aliases c)) as [section|] eqn:E.
  - split; [|discriminate]. intros Hnull. exfalso.
    unfold getSectionRef in E.
    apply scanSections_Some in E as (before & after & Et & _ & _).
    apply (Hdata section).
    + rewrite Et. apply in_elt.
    + unfold sectionOf in Hnull. injection Hnull as Hb _. exact Hb.
  - split; reflexivity.
Qed.

Lemma absent_range_means_missing_witness :
  (forall section, In section (sections requiredOnly) ->
                   Data (getContents section) <> nullptr) /\
  dumpSectionsOf "a.out" requiredOnly startup =
    (Continue EXIT_SUCCESS,
     {| cerr := cerr startup;
        cout := cout startup
                ++ [ {| ReflectionInfos := [bundleOf "a.out" requiredOnly] |} ] |}) /\
  (rangeOf (bundleOf "a.out" requiredOnly) BuiltinType =
     {| Begin := nullptr; End_ := nullptr |} <->
   missing requiredOnly BuiltinType).
Proof.
  assert (H : forall section, In section (sections requiredOnly) ->
                              Data (getContents section) <> nullptr).
  { intros section Hin. simpl in Hin.
    repeat (destruct Hin as [<-|Hin]; [simpl; discriminate|]). contradiction. }
  split; [exact H|]. split; [reflexivity|].
  exact (absent_range_means_missing "a.out" requiredOnly startup
           (bundleOf "a.out" requiredOnly) BuiltinType H eq_refl).
Defined.

(** Without that proviso the absent range is ambiguous: a section that is
    there with null, empty contents is recorded like a missing one. *)
Example null_contents_look_absent :
  present nullAssocty AssociatedType /\
  dumpSectionsOf "a.out" nullAssocty startup =
    (Continue EXIT_SUCCESS, dumped (bundleOf "a.out" nullAssocty) startup) /\
  assocty (bundleOf "a.out" nullAssocty) = absent.
Proof. repeat split. vm_compute. discriminate. Qed.

(** ** More on the whole run *)

Lemma string_append_assoc (s t u : string) :
  ((s ++ t) ++ u)%string = (s ++ (t ++ u))%string.
Proof. induction s as [|a s IH]; simpl; [reflexivity | now rewrite IH]. Qed.

Lemma doDump_cases (message : error_code -> string) (fs : FileSystem)
    (binaryFilename arch : string) (w : Streams) :
  doDumpReflectionSections message fs binaryFilename arch w =
  match createBinary fs binaryFilename with
  | Error e => (Exit EXIT_FAILURE, reportError message e w)
  | Value (IsObjectFile o) => dumpSectionsOf binaryFilename o w
  | Value (IsMachOUniversalBinary universal) =>
      match getObjectForArch universal arch with
      | Error e => (Exit EXIT_FAILURE, reportError message e w)
      | Value objectFile => dumpSectionsOf binaryFilename objectFile w
      end
  end.
Proof.
  unfold doDumpReflectionSections.
  destruct (createBinary fs binaryFilename) as [e|[o|universal]];
    try reflexivity.
  unfold bind; simpl.
  destruct (getObjectForArch universal arch); reflexivity.
Qed.

Lemma reportMissing_appends binaryFilename c w :
  required c = true ->
  exists text,
    reportMissing binaryFilename c w =
      {| cerr := cerr w ++ text; cout := cout w |} /\
    text <> "".
Proof.
  intros Hreq. exists (binaryFilename ++ missingText c)%string. split.
  - unfold reportMissing. now rewrite string_append_assoc.
  - apply append_not_empty. now apply missingText_not_empty.
Qed.

Lemma reportError_appends (message : error_code -> string) e w :
  exists text,
    reportError message e w = {| cerr := cerr w ++ text; cout := cout w |} /\
    text <> "".
Proof.
  exists ("swift-reflection-test error: " ++ (message e ++ nl))%string. split.
  - unfold reportError. now rewrite !string_append_assoc.
  - simpl. discriminate.
Qed.

(** X11.  From the parsed options on, on a file that the loader refuses
    or hands back as an object file or a universal binary,
    [doDumpReflectionSections] ends in one of two ways.  Either it returns
    [EXIT_SUCCESS], has written nothing to [std::cerr], and has dumped one
    builder holding one bundle named after the binary file; or it ends with
    [EXIT_FAILURE], by return or by [exit], has appended a diagnostic to
    [std::cerr], and has dumped nothing. *)
Theorem doDumpReflectionSections_outcome
    (message : error_code -> string) (fs : FileSystem)
    (binaryFilename arch : string) (w : Streams) :
  (exists info,
     doDumpReflectionSections message fs binaryFilename arch w =
       (Continue EXIT_SUCCESS,
        {| cerr := cerr w;
           cout := cout w ++ [ {| ReflectionInfos := [info] |} ] |}) /\
     ImageName info = binaryFilename)
  \/
  (exists flow text,
     doDumpReflectionSections message fs binaryFilename arch w =
       (flow, {| cerr := cerr w ++ text; cout := cout w |}) /\
     (flow = Continue EXIT_FAILURE \/ flow = Exit EXIT_FAILURE) /\
     text <> "").
Proof.
  assert (Hobj : forall objectFile,
    (exists info,
       dumpSectionsOf binaryFilename objectFile w =
         (Continue EXIT_SUCCESS,
          {| cerr := cerr w;
             cout := cout w ++ [ {| ReflectionInfos := [info] |} ] |}) /\
       ImageName info = binaryFilename)
    \/
    (exists flow text,
       dumpSectionsOf binaryFilename objectFile w =
         (flow, {| cerr := cerr w ++ text; cout := cout w |}) /\
       (flow = Continue EXIT_FAILURE \/ flow = Exit EXIT_FAILURE) /\
       text <> "")).
  { intros objectFile.
    assert (Hfail : forall c, required c = true ->
      dumpSectionsOf binaryFilename objectFile w =
        (Continue EXIT_FAILURE, reportMissing binaryFilename c w) ->
      exists flow text,
        dumpSectionsOf binaryFilename objectFile w =
          (flow, {| cerr := cerr w ++ text; cout := cout w |}) /\
        (flow = Continue EXIT_FAILURE \/ flow = Exit EXIT_FAILURE) /\
        text <> "").
    { intros c Hreq Hrun.
      destruct (reportMissing_appends binaryFilename c w Hreq) as (text & E & Hne).
      exists (Continue EXIT_FAILURE), text. rewrite Hrun, E. auto. }
    destruct (present_or_missing objectFile Field) as [Hf|Hf].
    2:{ right. apply (Hfail Field eq_refl). now apply dumpSectionsOf_no_field. }
    destruct (present_or_missing objectFile TypeRef) as [Ht|Ht].
    2:{ right. apply (Hfail TypeRef eq_refl). now apply dumpSectionsOf_no_typeref. }
    destruct (present_or_missing objectFile ReflectionStrings) as [Hr|Hr].
    2:{ right. apply (Hfail ReflectionStrings eq_refl).
        now apply dumpSectionsOf_no_reflstr. }
    left. exists (bundleOf binaryFilename objectFile).
    split; [now apply dumpSectionsOf_complete | reflexivity]. }
  assert (Herr : forall e,
    exists flow text,
      (@Exit Z EXIT_FAILURE, reportError message e w) =
        (flow, {| cerr := cerr w ++ text; cout := cout w |}) /\
      (flow = Continue EXIT_FAILURE \/ flow = Exit EXIT_FAILURE) /\
      text <> "").
  { intros e. destruct (reportError_appends message e w) as (text & E & Hne).
    exists (Exit EXIT_FAILURE), text. rewrite E. auto. }
  rewrite doDump_cases.
  destruct (createBinary fs binaryFilename) as [e|[o|universal]].
  - right. apply Herr.
  - apply Hobj.
  - destruct (getObjectForArch universal arch) as [e|objectFile].
    + right. apply Herr.
    + apply Hobj.
Qed.

(** X12.  The run ends in [exit] only through [unwrap]: the status is
    [EXIT_FAILURE], the one thing written is [unwrap]'s report of an error,
    nothing is dumped, and that error came from loading the file or, for a
    universal binary, from selecting the slice. *)
Theorem exit_is_unwrap_failure
    (message : error_code -> string) (fs : FileSystem)
    (binaryFilename arch : string) (w w' : Streams) (status : Z) :
  doDumpReflectionSections message fs binaryFilename arch w = (Exit status, w') ->
  status = EXIT_FAILURE /\
  exists e,
    w' = {| cerr := ((cerr w ++ "swift-reflection-test error: ")
                     ++ message e) ++ nl;
            cout := cout w |} /\
    (createBinary fs binaryFilename = Error e \/
     exists universal,
       createBinary fs binaryFilename = Value (IsMachOUniversalBinary universal) /\
       getObjectForArch universal arch = Error e).
Proof.
  unfold doDumpReflectionSections.
  destruct (createBinary fs binaryFilename) as [e|[o|universal]] eqn:E.
  - simpl. intros [= <- <-]. split; [reflexivity|]. exists e. split; auto.
  - unfold bind; simpl.
    destruct (dumpSectionsOf_returns binaryFilename o w) as (s & w1 & ->).
    discriminate.
  - unfold bind; simpl.
    destruct (getObjectForArch universal arch) as [e|objectFile] eqn:E'.
    + simpl. intros [= <- <-]. split; [reflexivity|]. exists e.
      split; [reflexivity|]. right. now exists universal.
    + simpl.
      destruct (dumpSectionsOf_returns binaryFilename objectFile w)
        as (s & w1 & ->).
      discriminate.
Qed.

Lemma exit_is_unwrap_failure_witness :
  doDumpReflectionSections sampleMessage disk "secret" "arm64" startup =
    (Exit 1, reportError sampleMessage permission_denied startup) /\
  1 = EXIT_FAILURE /\
  exists e,
    reportError sampleMessage permission_denied startup =
      {| cerr := ((cerr startup ++ "swift-reflection-test error: ")
                  ++ sampleMessage e) ++ nl;
         cout := cout startup |} /\
    (createBinary disk "secret" = Error e \/
     exists universal,
       createBinary disk "secret" = Value (IsMachOUniversalBinary universal) /\
       getObjectForArch universal "arm64" = Error e).
Proof.
  split; [reflexivity|].
  exact (exit_is_unwrap_failure sampleMessage disk "secret" "arm64" startup
           (reportError sampleMessage permission_denied startup) 1 eq_refl).
Defined.

(** X13.  Once a slice of a universal binary is selected, the run is the
    run on a flat object file of the same name holding that object: the
    slice's architecture leaves no trace in the bundle or the diagnostics. *)
Theorem selected_slice_as_flat
    (message : error_code -> string) (fs fs' : FileSystem)
    (binaryFilename arch arch' : string)
    (universal : MachOUniversalBinary) (objectFile : ObjectFile) (w : Streams) :
  fs binaryFilename = Some (Holds (IsMachOUniversalBinary universal)) ->
  getObjectForArch universal arch = Value objectFile ->
  fs' binaryFilename = Some (Holds (IsObjectFile objectFile)) ->
  doDumpReflectionSections message fs binaryFilename arch w =
  doDumpReflectionSections message fs' binaryFilename arch' w.
Proof.
  intros Hfat Hslice Hflat.
  rewrite (doDump_universal message fs binaryFilename arch universal w Hfat).
  rewrite Hslice.
  now rewrite (doDump_flat message fs' binaryFilename arch' objectFile w Hflat).
Qed.

Lemma selected_slice_as_flat_witness :
  disk "fat" = Some (Holds (IsMachOUniversalBinary twoSlices)) /\
  getObjectForArch twoSlices "arm64" = Value requiredOnly /\
  flatDisk "fat" = Some (Holds (IsObjectFile requiredOnly)) /\
  doDumpReflectionSections sampleMessage disk "fat" "arm64" startup =
  doDumpReflectionSections sampleMessage flatDisk "fat" "x86_64" startup.
Proof.
  split; [reflexivity|]. split; [reflexivity|]. split; [reflexivity|].
  exact (selected_slice_as_flat sampleMessage disk flatDisk "fat" "arm64"
           "x86_64" twoSlices requiredOnly startup eq_refl eq_refl eq_refl).
Defined.

Lemma dumpSectionsOf_appends binaryFilename objectFile w :
  dumpSectionsOf binaryFilename objectFile w =
  (fst (dumpSectionsOf binaryFilename objectFile startup),
   after w (snd (dumpSectionsOf binaryFilename objectFile startup))).
Proof.
  assert (Hmiss : forall c,
    reportMissing binaryFilename c w =
    after w (reportMissing binaryFilename c startup)).
  { intros c. unfold reportMissing, after; simpl.
    now rewrite string_append_assoc, app_nil_r. }
  destruct (present_or_missing objectFile Field) as [Hf|Hf].
  2:{ rewrite !dumpSectionsOf_no_field by assumption. simpl. now rewrite Hmiss. }
  destruct (present_or_missing objectFile TypeRef) as [Ht|Ht].
  2:{ rewrite !dumpSectionsOf_no_typeref by assumption. simpl. now rewrite Hmiss. }
  destruct (present_or_missing objectFile ReflectionStrings) as [Hr|Hr].
  2:{ rewrite !dumpSectionsOf_no_reflstr by assumption. simpl. now rewrite Hmiss. }
  rewrite !dumpSectionsOf_complete by assumption. simpl.
  unfold dumped, after; simpl.
  assert (E : (cerr w ++ "")%string = cerr w)
    by (induction (cerr w) as [|a s IH]; simpl; [reflexivity | now rewrite IH]).
  now rewrite E.
Qed.

(** X14.  The run only ever appends to the two streams, and what it
    appends, like its status, does not depend on what they held before:
    started on streams [w] it leaves the contents of [w] followed by what it
    leaves when started on empty streams. *)
Theorem output_is_appended
    (message : error_code -> string) (fs : FileSystem)
    (binaryFilename arch : string) (w : Streams) :
  doDumpReflectionSections message fs binaryFilename arch w =
  (fst (doDumpReflectionSections message fs binaryFilename arch startup),
   {| cerr := cerr w
              ++ cerr (snd (doDumpReflectionSections message fs binaryFilename
                              arch startup));
      cout := cout w
              ++ cout (snd (doDumpReflectionSections message fs binaryFilename
                              arch startup)) |}).
Proof.
  assert (Herr : forall e,
    reportError message e w = after w (reportError message e startup)).
  { intros e. unfold reportError, after; simpl.
    now rewrite !string_append_assoc, app_nil_r. }
  fold (after w (snd (doDumpReflectionSections message fs binaryFilename
                        arch startup))).
  rewrite !doDump_cases.
  destruct (createBinary fs binaryFilename) as [e|[o|universal]].
  - cbn [fst snd]. now rewrite Herr.
  - apply dumpSectionsOf_appends.
  - destruct (getObjectForArch universal arch) as [e|objectFile].
    + cbn [fst snd]. now rewrite Herr.
    + apply dumpSectionsOf_appends.
Qed.
